(** * The FIT file processor (packages/fit-processor/main.py)

    A shallow embedding of the service's three routines:
    [parse_fit_file], which iterates the frames of a [fitdecode.FitReader],
    and the two HTTP handlers [process_fit_file] and [process_uploaded_file].

    [fitdecode] is a third-party library: its reader is a variable of the
    development, described by what the loop of [parse_fit_file] observes of
    it, namely the frames it yields and the exception, if any, that ends the
    iteration.  Python exceptions are values of [outcome]; the wall clock
    read by [process_fit_file] is an explicit argument; the calls a handler
    makes are recorded in an event log threaded through the [io] monad. *)

From Stdlib Require Import ZArith NArith List String Ascii Bool Lia.
From Stdlib Require Import Floats DecimalString.
From Stdlib Require DecimalN DecimalPos DecimalFacts.
Import ListNotations.

#[local] Set Warnings "-register-all,-inexact-float".

Local Open Scope string_scope.
Local Open Scope Z_scope.

(** ** Python values and exceptions *)

Module Py.

(** The JSON-like values the handlers put in their payloads ([Dict[str, Any]]). *)
Inductive value : Type :=
| PNone
| PBool (b : bool)
| PInt (n : Z)
| PFloat (x : float)
| PStr (s : string)
| PList (items : list value)
| PDict (items : list (string * value)).

Definition bytes := list Byte.byte.

(** The exceptions that occur in main.py.  [Exception] is the builtin class
    instantiated at line 136, [HTTPException] is FastAPI's (lines 76, 85,
    100); [LibraryError cls msg] stands for an instance of class [cls],
    a subclass of [Exception], raised outside main.py (by fitdecode, by the
    upload object, or by the interpreter for an attribute of [None]), whose
    [str()] is [msg]. *)
Inductive exn : Type :=
| Exception (msg : string)
| HTTPException (status_code : Z) (detail : string)
| LibraryError (cls : string) (msg : string).

Definition type_name (e : exn) : string :=
  match e with
  | Exception _ => "Exception"
  | HTTPException _ _ => "HTTPException"
  | LibraryError cls _ => cls
  end.

Definition status_of (e : exn) : option Z :=
  match e with
  | HTTPException code _ => Some code
  | _ => None
  end.

(** A call either returns or raises. *)
Inductive outcome (A : Type) : Type :=
| Return (a : A)
| Raise (e : exn).

Arguments Return {A} a.
Arguments Raise {A} e.

Definition bind {A B} (m : outcome A) (k : A -> outcome B) : outcome B :=
  match m with
  | Return a => k a
  | Raise e => Raise e
  end.

(** [try: m  except Exception as e: h e] *)
Definition try_except {A} (m : outcome A) (h : exn -> outcome A) : outcome A :=
  match m with
  | Return a => Return a
  | Raise e => h e
  end.

(** [s.endswith(suffix)] *)
Definition endswith (s suffix : string) : bool :=
  let n := String.length s in
  let m := String.length suffix in
  if (m <=? n)%nat then String.eqb (substring (n - m) m s) suffix else false.

(** [s.zfill(width)] for a string of digits. *)
Fixpoint zeros (k : nat) : string :=
  match k with
  | O => EmptyString
  | S k' => String "0" (zeros k')
  end.

Definition zfill (width : nat) (s : string) : string :=
  zeros (width - String.length s) ++ s.

(** ["%d" % n] for a natural number. *)
Definition str_of_N (n : N) : string := NilEmpty.string_of_uint (N.to_uint n).

(** All the dictionary entries found in a value, at any depth. *)
Fixpoint entries (v : value) : list (string * value) :=
  match v with
  | PList items => flat_map entries items
  | PDict items => items ++ flat_map (fun kv => entries (snd kv)) items
  | _ => []
  end.

End Py.

Import Py.

Declare Scope outcome_scope.
Delimit Scope outcome_scope with outcome.
Notation "x <- m ;; k" := (bind m (fun x => k))
  (at level 100, m at next level, right associativity) : outcome_scope.

(** ** What fitdecode hands to the loop *)

Module Fit.

(** [frame.frame_type] *)
Inductive frame_type_t : Type :=
| FIT_FRAME_HEADER
| FIT_FRAME_CRC
| FIT_FRAME_DEFINITION
| FIT_FRAME_DATA.

Definition frame_type_eqb (a b : frame_type_t) : bool :=
  match a, b with
  | FIT_FRAME_HEADER, FIT_FRAME_HEADER
  | FIT_FRAME_CRC, FIT_FRAME_CRC
  | FIT_FRAME_DEFINITION, FIT_FRAME_DEFINITION
  | FIT_FRAME_DATA, FIT_FRAME_DATA => true
  | _, _ => false
  end.

(** The base types of a field (the names of the FIT profile). *)
Inductive base_type_t : Type :=
| bt_enum | bt_sint8 | bt_uint8 | bt_sint16 | bt_uint16 | bt_sint32
| bt_uint32 | bt_string | bt_float32 | bt_float64 | bt_uint8z | bt_uint16z
| bt_uint32z | bt_byte | bt_sint64 | bt_uint64 | bt_uint64z.

(** One decoded field of a data message, as fitdecode's [FieldData]
    carries it: its name, its base type, the raw value read from the file
    and the value after fitdecode's own conversion. *)
Record FieldData : Type := {
  fd_name : string;
  fd_base_type : base_type_t;
  fd_raw_value : Z;
  fd_value : value
}.

(** The four kinds of frame the reader yields. *)
Inductive frame : Type :=
| FitHeader (header_size proto_ver profile_ver body_size : Z)
| FitCRC (crc : Z) (matched : bool)
| FitDefinitionMessage (local_mesg_num global_mesg_num : Z) (mesg_name : string)
| FitDataMessage (local_mesg_num global_mesg_num : Z) (mesg_name : string)
                 (fields : list FieldData).

Definition frame_type (f : frame) : frame_type_t :=
  match f with
  | FitHeader _ _ _ _ => FIT_FRAME_HEADER
  | FitCRC _ _ => FIT_FRAME_CRC
  | FitDefinitionMessage _ _ _ => FIT_FRAME_DEFINITION
  | FitDataMessage _ _ _ _ => FIT_FRAME_DATA
  end.

(** [frame.name]: a property of the two message classes; the header and
    CRC frames have no such attribute. *)
Definition name (f : frame) : outcome string :=
  match f with
  | FitDefinitionMessage _ _ n => Return n
  | FitDataMessage _ _ n _ => Return n
  | FitHeader _ _ _ _ =>
      Raise (LibraryError "AttributeError" "'FitHeader' object has no attribute 'name'")
  | FitCRC _ _ =>
      Raise (LibraryError "AttributeError" "'FitCRC' object has no attribute 'name'")
  end.

(** One run of [with fitdecode.FitReader(content) as fit_file: for frame in
    fit_file: ...] as the loop sees it: the frames yielded, in order, and the
    exception that ended the iteration (or the construction of the reader),
    [None] when the iterator was exhausted normally. *)
Record reader_run : Type := {
  yielded : list frame;
  raised : option exn
}.

End Fit.

Import Fit.

(** ** parse_fit_file *)

(** The dictionary built at lines 108-113. *)
Record activity_data_t : Type := {
  metadata : list (string * value);
  records : list value;
  laps : list value;
  sessions : list value
}.

Definition activity_data_init : activity_data_t :=
  {| metadata := []; records := []; laps := []; sessions := [] |}.

(** The dictionary as a Python value. *)
Definition to_value (d : activity_data_t) : value :=
  PDict [("metadata", PDict (metadata d));
         ("records", PList (records d));
         ("laps", PList (laps d));
         ("sessions", PList (sessions d))].

Section Decoder.

(** [str(e)] of an [HTTPException] is Starlette's and differs between its
    releases. *)
Variable str_HTTPException : Z -> string -> string.

Definition str (e : exn) : string :=
  match e with
  | Exception msg => msg
  | HTTPException code detail => str_HTTPException code detail
  | LibraryError _ msg => msg
  end.

(** The reader of the fitdecode library. *)
Variable FitReader : bytes -> reader_run.

(** The body of the [for] loop, lines 116-131. *)
Definition process_frame (frame : Fit.frame) (activity_data : activity_data_t)
  : outcome activity_data_t :=
  if frame_type_eqb (frame_type frame) FIT_FRAME_DATA then
    (n <- name frame ;;
     if String.eqb n "file_id" then Return activity_data
     else (n <- name frame ;;
     if String.eqb n "activity" then Return activity_data
     else (n <- name frame ;;
     if String.eqb n "session" then Return activity_data
     else (n <- name frame ;;
     if String.eqb n "lap" then Return activity_data
     else (n <- name frame ;;
     if String.eqb n "record" then Return activity_data
     else Return activity_data)))))%outcome
  else Return activity_data.

(** The loop over the frames already yielded. *)
Fixpoint iterate (frames : list frame) (activity_data : activity_data_t)
  : outcome activity_data_t :=
  match frames with
  | [] => Return activity_data
  | frame :: rest =>
      (d <- process_frame frame activity_data ;; iterate rest d)%outcome
  end.

(** Lines 107-133: the loop runs over the yielded frames; the iteration then
    ends normally, and line 133 returns, or with the reader's exception. *)
Definition parse_body (run : reader_run) : outcome activity_data_t :=
  (d <- iterate (yielded run) activity_data_init ;;
   match raised run with
   | None => Return d
   | Some e => Raise e
   end)%outcome.

Definition parse_fit_file (file_content : bytes) : outcome activity_data_t :=
  try_except (parse_body (FitReader file_content))
    (fun e => Raise (Exception ("Failed to parse FIT file: " ++ str e))).

(** *** The handlers *)

(** [datetime.now()]: a naive local time, read from the wall clock. *)
Record datetime : Type := {
  year : N; month : N; day : N;
  hour : N; minute : N; second : N;
  microsecond : N
}.

(** [dt.isoformat()]: [YYYY-MM-DDTHH:MM:SS], followed by [.ffffff] when the
    microsecond is not zero. *)
Definition isoformat (dt : datetime) : string :=
  zfill 4 (str_of_N (year dt)) ++ "-" ++ zfill 2 (str_of_N (month dt)) ++ "-"
  ++ zfill 2 (str_of_N (day dt)) ++ "T"
  ++ zfill 2 (str_of_N (hour dt)) ++ ":" ++ zfill 2 (str_of_N (minute dt)) ++ ":"
  ++ zfill 2 (str_of_N (second dt))
  ++ (if (microsecond dt =? 0)%N then ""
      else "." ++ zfill 6 (str_of_N (microsecond dt))).

Record ProcessRequest : Type := {
  activityId : string;
  fileName : string;
  fileSize : Z
}.

Record ProcessResponse : Type := {
  success : bool;
  data : value;
  message : string
}.

(** Lines 47-67, with the clock reading of line 51 as [now].  The two float
    literals denote, as in Python, the nearest binary64 values. *)
Definition mock_data (now : datetime) : value :=
  PDict [
    ("metadata", PDict [
       ("device", PStr "Garmin Edge 530");
       ("sport", PStr "cycling");
       ("startTime", PStr (isoformat now));
       ("totalTime", PInt 3600);
       ("totalDistance", PInt 25000);
       ("avgSpeed", PFloat 6.94%float);
       ("maxSpeed", PFloat 12.5%float);
       ("avgHeartRate", PInt 150);
       ("maxHeartRate", PInt 180);
       ("avgPower", PInt 200);
       ("maxPower", PInt 400);
       ("calories", PInt 800);
       ("elevationGain", PInt 500);
       ("temperature", PInt 20)]);
    ("records", PList []);
    ("laps", PList []);
    ("sessions", PList [])].

(** POST /process-fit.  [now] is what [datetime.now()] returns during the
    call. *)
Definition process_fit_file (request : ProcessRequest) (now : datetime)
  : outcome ProcessResponse :=
  try_except
    (Return {| success := true;
               data := mock_data now;
               message := "FIT file processed successfully" |})
    (fun e => Raise (HTTPException 500 ("Error processing FIT file: " ++ str e))).

(** What a handler does to its collaborators, in order. *)
Inductive event : Type :=
| EvRead                          (* [await file.read()] *)
| EvParse (file_content : bytes). (* a call of [parse_fit_file] *)

(** A handler step: it may append to the log, and returns or raises. *)
Definition io (A : Type) : Type := list event -> outcome A * list event.

Definition io_ret {A} (a : A) : io A := fun log => (Return a, log).

Definition io_raise {A} (e : exn) : io A := fun log => (Raise e, log).

Definition io_bind {A B} (m : io A) (k : A -> io B) : io B :=
  fun log =>
    match m log with
    | (Return a, log') => k a log'
    | (Raise e, log') => (Raise e, log')
    end.

Definition io_try {A} (m : io A) (h : exn -> io A) : io A :=
  fun log =>
    match m log with
    | (Return a, log') => (Return a, log')
    | (Raise e, log') => h e log'
    end.

Definition io_call {A} (ev : event) (r : outcome A) : io A :=
  fun log => (r, (log ++ [ev])%list).

(** FastAPI's [UploadFile]: [filename] may be [None]; [read] is the outcome
    of [await file.read()]. *)
Record UploadFile : Type := {
  filename : option string;
  read : outcome bytes
}.

(** [file.filename.endswith(suffix)] *)
Definition filename_endswith (file : UploadFile) (suffix : string) : outcome bool :=
  match filename file with
  | Some s => Return (endswith s suffix)
  | None =>
      Raise (LibraryError "AttributeError"
               "'NoneType' object has no attribute 'endswith'")
  end.

(** POST /process-upload, lines 83-100. *)
Definition process_uploaded_file (file : UploadFile) : io value :=
  io_try
    (io_bind (fun log => (filename_endswith file ".fit", log)) (fun is_fit =>
     io_bind (if negb is_fit
              then io_raise (HTTPException 400 "File must be a .fit file")
              else io_ret tt) (fun _ =>
     io_bind (io_call EvRead (read file)) (fun content =>
     io_bind (io_call (EvParse content) (parse_fit_file content)) (fun activity_data =>
     io_ret (PDict [("success", PBool true);
                    ("data", to_value activity_data);
                    ("message", PStr "File processed successfully")]))))))
    (fun e => io_raise (HTTPException 500 ("Error processing file: " ++ str e))).

End Decoder.

(** ** The vocabulary of the specification *)

(** The error names of the output contract (section 6). *)
Definition FitError_names : list string :=
  ["HeaderInvalid"; "Truncated"; "UndefinedLocalMessage"; "SizeMismatch";
   "MalformedMessage"; "CrcMismatch"].

Definition is_FitError (e : exn) : bool :=
  existsb (String.eqb (type_name e)) FitError_names.


(** Modelled from the spec: the invalid-value sentinel of a base type
    (section 4.2), a table of fitdecode that main.py never consults.  The
    spec states two rows, 0xFF for uint8 and 0x7FFFFFFF for sint32. *)
Definition invalid_value (t : base_type_t) : option Z :=
  match t with
  | bt_uint8 => Some 0xFF
  | bt_sint32 => Some 0x7FFFFFFF
  | _ => None
  end.

Definition is_invalid (f : FieldData) : bool :=
  match invalid_value (fd_base_type f) with
  | Some s => fd_raw_value f =? s
  | None => false
  end.

(** The fields of the data messages of a stream. *)
Definition fields_of (frames : list frame) : list FieldData :=
  flat_map (fun f => match f with
                     | FitDataMessage _ _ _ fs => fs
                     | _ => []
                     end) frames.

(** The result holds, somewhere, an entry [key: None]. *)
Definition marks_absent (key : string) (d : activity_data_t) : bool :=
  existsb (fun kv => String.eqb (fst kv) key
                     && match snd kv with PNone => true | _ => false end)
          (entries (to_value d)).

(** The result holds, somewhere, an entry [key: n]. *)
Definition carries (key : string) (n : Z) (d : activity_data_t) : bool :=
  existsb (fun kv => String.eqb (fst kv) key
                     && match snd kv with PInt m => m =? n | _ => false end)
          (entries (to_value d)).

(** A run on a minimal file: the reader raises nothing, its first frame is
    a header declaring an empty data section, and it yields no data
    message. *)
Definition minimal_run (run : reader_run) : Prop :=
  raised run = None
  /\ (exists hs pv pf, hd_error (yielded run) = Some (FitHeader hs pv pf 0))
  /\ forallb (fun f => negb (frame_type_eqb (frame_type f) FIT_FRAME_DATA))
             (yielded run) = true.

(** The timestamp of a record: its ["timestamp"] entry, in seconds. *)
Definition timestamp_of (r : value) : option Z :=
  match r with
  | PDict items =>
      match find (fun kv => String.eqb (fst kv) "timestamp") items with
      | Some (_, PInt t) => Some t
      | _ => None
      end
  | _ => None
  end.

(** Records are in non-decreasing timestamp order. *)
Definition time_ordered (rs : list value) : Prop :=
  forall i j ri rj ti tj,
    (i <= j)%nat ->
    nth_error rs i = Some ri -> nth_error rs j = Some rj ->
    timestamp_of ri = Some ti -> timestamp_of rj = Some tj ->
    ti <= tj.

(** ** Notions used by the further properties *)

(** The dictionary returned at lines 93-97 when the decoder returns. *)
Definition success_payload : value :=
  PDict [("success", PBool true);
         ("data", to_value activity_data_init);
         ("message", PStr "File processed successfully")].

(** [d.get(key)] on a dictionary value. *)
Definition lookup (key : string) (v : value) : option value :=
  match v with
  | PDict items =>
      option_map snd (find (fun kv => String.eqb (fst kv) key) items)
  | _ => None
  end.

(** The [startTime] of a /process-fit response. *)
Definition startTime_of (resp : ProcessResponse) : option value :=
  match lookup "metadata" (data resp) with
  | Some m => lookup "startTime" m
  | None => None
  end.

(** The field ranges of a Python [datetime]. *)
Definition in_range (dt : datetime) : bool :=
  ((1 <=? year dt) && (year dt <=? 9999)
   && (1 <=? month dt) && (month dt <=? 12)
   && (1 <=? day dt) && (day dt <=? 31)
   && (hour dt <=? 23) && (minute dt <=? 59) && (second dt <=? 59)
   && (microsecond dt <=? 999999))%N.

(** The characters 0 to 9. *)
Definition is_digit (c : ascii) : bool :=
  (48 <=? nat_of_ascii c)%nat && (nat_of_ascii c <=? 57)%nat.

Fixpoint all_digits (s : string) : bool :=
  match s with
  | EmptyString => true
  | String c s' => is_digit c && all_digits s'
  end.

(** Reading a zero-padded decimal field back. *)
Definition parse_N (s : string) : option N :=
  option_map N.of_uint (NilEmpty.uint_of_string s).

(** The decimal digit [k] put in front of [d]. *)
Definition digit (k : N) (d : Decimal.uint) : Decimal.uint :=
  match k with
  | 0 => Decimal.D0 d | 1 => Decimal.D1 d | 2 => Decimal.D2 d
  | 3 => Decimal.D3 d | 4 => Decimal.D4 d | 5 => Decimal.D5 d
  | 6 => Decimal.D6 d | 7 => Decimal.D7 d | 8 => Decimal.D8 d
  | _ => Decimal.D9 d
  end%N.

(** The [w] low decimal digits of [n], least significant first. *)
Fixpoint low_digits (w : nat) (n : N) : Decimal.uint :=
  match w with
  | O => Decimal.Nil
  | S w' => digit (n mod 10)%N (low_digits w' (n / 10)%N)
  end.

(** ** Sample collaborators

    Concrete readers, clocks and uploads on which the statements below
    are evaluated. *)

Module Sample.

(** [str()] of an [HTTPException] as recent Starlette releases define it:
    the status code, a colon and the detail. *)
Definition str_HTTPException (code : Z) (detail : string) : string :=
  str_of_N (Z.to_N code) ++ ": " ++ detail.

Definition header : frame := FitHeader 14 32 2132 0.

(** A header-only file: header, then the trailing CRC. *)
Definition minimal : reader_run :=
  {| yielded := [header; FitCRC 0 true]; raised := None |}.

(** A heart-rate field holding the uint8 sentinel; fitdecode's converted
    value is [None]. *)
Definition heart_rate_invalid : FieldData :=
  {| fd_name := "heart_rate"; fd_base_type := bt_uint8;
     fd_raw_value := 255; fd_value := PNone |}.

Definition timestamp_field : FieldData :=
  {| fd_name := "timestamp"; fd_base_type := bt_uint32;
     fd_raw_value := 1000000000; fd_value := PInt 1000000000 |}.

(** An activity with one sample, one lap and one session, and an event
    message in between. *)
Definition ride : reader_run :=
  {| yielded :=
       [FitHeader 14 32 2132 64;
        FitDefinitionMessage 0 0 "file_id";
        FitDataMessage 0 0 "file_id" [];
        FitDefinitionMessage 1 20 "record";
        FitDataMessage 1 20 "record" [timestamp_field; heart_rate_invalid];
        FitDefinitionMessage 2 21 "event";
        FitDataMessage 2 21 "event" [];
        FitDefinitionMessage 3 19 "lap";
        FitDataMessage 3 19 "lap" [];
        FitDefinitionMessage 4 18 "session";
        FitDataMessage 4 18 "session" [];
        FitCRC 0 true];
     raised := None |}.


(** The reader stops at the header with an error of its own. *)
Definition bad_header : reader_run :=
  {| yielded := [];
     raised := Some (LibraryError "FitHeaderError" "not a FIT file") |}.


Definition reader (run : reader_run) : bytes -> reader_run := fun _ => run.

Definition morning : datetime :=
  {| year := 2026; month := 11; day := 3;
     hour := 9; minute := 5; second := 0; microsecond := 0 |}.

Definition a_second_later : datetime :=
  {| year := 2026; month := 11; day := 3;
     hour := 9; minute := 5; second := 1; microsecond := 0 |}.

Definition request : ProcessRequest :=
  {| activityId := "a1"; fileName := "ride.fit"; fileSize := 1024 |}.

Definition upload (name : string) : UploadFile :=
  {| filename := Some name; read := Return [] |}.

(** A [.fit] upload whose body cannot be read. *)
Definition unreadable : UploadFile :=
  {| filename := Some "ride.fit";
     read := Raise (LibraryError "OSError" "connection reset") |}.

(** The same failure text under another class. *)
Definition bad_crc : reader_run :=
  {| yielded := [header];
     raised := Some (LibraryError "FitCRCError" "not a FIT file") |}.

(** A reader that tells the empty buffer from the others. *)
Definition reader_by_content : bytes -> reader_run :=
  fun content => match content with [] => ride | _ => bad_header end.

End Sample.

#[local] Abbreviation sample_parse run :=
  (parse_fit_file Sample.str_HTTPException (Sample.reader run)).

(** ** Properties of the loop *)

(** Every branch of the loop body leaves the dictionary as it is, and
    reading [frame.name] never fails where the body reads it. *)
Lemma process_frame_noop (f : frame) (d : activity_data_t) :
  process_frame f d = Return d.
Proof.
  unfold process_frame.
  destruct f as [hs pv pf bs | c m | l g n | l g n fs]; simpl; try reflexivity.
  repeat match goal with
         | |- context [String.eqb n ?s] => destruct (String.eqb n s)
         end; reflexivity.
Qed.

Lemma iterate_app (pre post : list frame) (d : activity_data_t) :
  iterate (pre ++ post) d = bind (iterate pre d) (iterate post).
Proof.
  revert d.
  induction pre as [| f pre IH]; intros d; simpl.
  - reflexivity.
  - destruct (process_frame f d) as [d' | e]; simpl.
    + apply IH.
    + reflexivity.
Qed.

Lemma iterate_noop (frames : list frame) (d : activity_data_t) :
  iterate frames d = Return d.
Proof.
  induction frames as [| f frames IH]; simpl.
  - reflexivity.
  - rewrite process_frame_noop. simpl. exact IH.
Qed.

(** The outcome of the body is decided by how the iteration ended. *)
Lemma parse_body_outcome (run : reader_run) :
  parse_body run =
  match raised run with
  | None => Return activity_data_init
  | Some e => Raise e
  end.
Proof.
  unfold parse_body. rewrite iterate_noop. reflexivity.
Qed.

(** C10: a data frame whose name is none of file_id, activity, session,
    lap, record is passed over without an exception, and the loop goes on
    with the frames after it: the parse ends as it would without the
    frame. *)
Theorem unknown_message_skipped (l g : Z) (n : string) (fs : list FieldData) :
  ~ In n ["file_id"; "activity"; "session"; "lap"; "record"] ->
  (forall d, process_frame (FitDataMessage l g n fs) d = Return d)
  /\ (forall pre post d,
        iterate (pre ++ FitDataMessage l g n fs :: post) d = iterate (pre ++ post) d)
  /\ (forall pre post r,
        parse_body {| yielded := pre ++ FitDataMessage l g n fs :: post; raised := r |}
        = parse_body {| yielded := pre ++ post; raised := r |}).
Proof.
  intros Hn.
  assert (Hstep : forall d, process_frame (FitDataMessage l g n fs) d = Return d).
  { intros d. unfold process_frame. simpl.
    repeat match goal with
           | |- context [String.eqb n ?s] =>
               let E := fresh "E" in
               destruct (String.eqb n s) eqn:E;
               [ apply String.eqb_eq in E; exfalso; apply Hn; subst n; simpl; tauto | ]
           end.
    reflexivity. }
  assert (Hloop : forall pre post d,
             iterate (pre ++ FitDataMessage l g n fs :: post) d = iterate (pre ++ post) d).
  { intros pre post d. rewrite !iterate_app.
    destruct (iterate pre d) as [d' | e]; simpl.
    - rewrite Hstep. reflexivity.
    - reflexivity. }
  repeat split.
  - exact Hstep.
  - exact Hloop.
  - intros pre post r. unfold parse_body. simpl. rewrite Hloop. reflexivity.
Qed.

(** ** Properties of parse_fit_file *)

Section DecoderFacts.

Variable str_HTTPException : Z -> string -> string.
Variable FitReader : bytes -> reader_run.

#[local] Abbreviation str' := (str str_HTTPException).
#[local] Abbreviation decode := (parse_fit_file str_HTTPException FitReader).

Lemma parse_fit_file_outcome (file_content : bytes) :
  decode file_content =
  match raised (FitReader file_content) with
  | None => Return activity_data_init
  | Some e => Raise (Exception ("Failed to parse FIT file: " ++ str' e))
  end.
Proof.
  unfold parse_fit_file. rewrite parse_body_outcome.
  destruct (raised (FitReader file_content)); reflexivity.
Qed.

Lemma parse_fit_file_returns (file_content : bytes) (d : activity_data_t) :
  decode file_content = Return d -> d = activity_data_init.
Proof.
  rewrite parse_fit_file_outcome.
  destruct (raised (FitReader file_content)); intros H.
  - discriminate H.
  - injection H as H. symmetry. exact H.
Qed.

(** C1: whenever [parse_fit_file] returns, the metadata mapping and the
    records, laps and sessions lists of its result are empty; each of the
    five named data-frame branches returns the dictionary it was given. *)
Theorem parse_fit_file_result_empty (file_content : bytes) (d : activity_data_t) :
  decode file_content = Return d ->
  (metadata d = [] /\ records d = [] /\ laps d = [] /\ sessions d = [])
  /\ (forall l g n fs d0,
        In n ["file_id"; "activity"; "session"; "lap"; "record"] ->
        process_frame (FitDataMessage l g n fs) d0 = Return d0).
Proof.
  intros H. apply parse_fit_file_returns in H. subst d.
  split.
  - repeat split.
  - intros l g n fs d0 _. apply process_frame_noop.
Qed.

(** C8: on a minimal file (the reader raises nothing, the header declares
    an empty data section, no data message is yielded) decoding succeeds
    and the result has empty records, laps and sessions. *)
Theorem parse_fit_file_minimal (file_content : bytes) :
  minimal_run (FitReader file_content) ->
  exists d,
    decode file_content = Return d
    /\ records d = [] /\ laps d = [] /\ sessions d = [].
Proof.
  intros [Hraised _].
  exists activity_data_init.
  rewrite parse_fit_file_outcome, Hraised.
  repeat split.
Qed.

(** C9: after a successful decode the records are in non-decreasing
    timestamp order, and the lap and session branches return a dictionary
    with the records list they were given. *)
Theorem parse_fit_file_records_ordered (file_content : bytes) (d : activity_data_t) :
  decode file_content = Return d ->
  time_ordered (records d)
  /\ (forall l g n fs d0 d1,
        n = "lap" \/ n = "session" ->
        process_frame (FitDataMessage l g n fs) d0 = Return d1 ->
        records d1 = records d0).
Proof.
  intros H. apply parse_fit_file_returns in H. subst d.
  split.
  - intros i j ri rj ti tj _ Hi _ _ _. simpl in Hi.
    destruct i; discriminate Hi.
  - intros l g n fs d0 d1 _ Hstep.
    rewrite process_frame_noop in Hstep.
    injection Hstep as <-. reflexivity.
Qed.

(** C3, as amended: [parse_fit_file] either returns the dictionary or
    raises the builtin [Exception] whose message is the fixed prefix
    followed by the text of the reader's exception; what it raises is never
    one of the error kinds named by the output contract. *)
Theorem parse_fit_file_failure_shape (file_content : bytes) :
  (decode file_content = Return activity_data_init
   \/ exists cause,
        raised (FitReader file_content) = Some cause
        /\ decode file_content
           = Raise (Exception ("Failed to parse FIT file: " ++ str' cause)))
  /\ (forall e,
        decode file_content = Raise e ->
        type_name e = "Exception" /\ is_FitError e = false).
Proof.
  rewrite parse_fit_file_outcome.
  destruct (raised (FitReader file_content)) as [cause |].
  - split.
    + right. exists cause. split; reflexivity.
    + intros e H. injection H as <-. split; reflexivity.
  - split.
    + left. reflexivity.
    + intros e H. discriminate H.
Qed.


(** C7, as amended: no field of a data message reaches the result.  After
    a successful decode, for every field the reader delivered (invalid or
    not) the result holds under the field's name neither the raw value,
    so never the sentinel, nor an absent marker. *)
Theorem no_field_reaches_result (file_content : bytes) (d : activity_data_t) :
  decode file_content = Return d ->
  forall f,
    In f (fields_of (yielded (FitReader file_content))) ->
    carries (fd_name f) (fd_raw_value f) d = false
    /\ marks_absent (fd_name f) d = false.
Proof.
  intros H f _. apply parse_fit_file_returns in H. subst d.
  unfold carries, marks_absent. simpl.
  rewrite !andb_false_r. split; reflexivity.
Qed.

(** Two responses of /process-fit can only be equal when they carry the
    same [startTime]. *)
Lemma process_fit_file_startTime (r1 r2 : ProcessRequest) (now1 now2 : datetime) :
  process_fit_file str_HTTPException r1 now1
  = process_fit_file str_HTTPException r2 now2 ->
  isoformat now1 = isoformat now2.
Proof.
  unfold process_fit_file, mock_data. simpl.
  intros H. injection H as H. exact H.
Qed.

(** C2, as amended.  Decoding is deterministic relative to the reader: two
    invocations on the same bytes during which the reader behaves alike
    have the same outcome.  The /process-fit response is a function of the
    clock, not of the request: two invocations answer alike exactly when
    their clock readings have the same ISO text. *)
Theorem decode_deterministic_up_to_clock
    (FitReader' : bytes -> reader_run) (file_content : bytes) :
  FitReader file_content = FitReader' file_content ->
  decode file_content
  = parse_fit_file str_HTTPException FitReader' file_content
  /\ (forall r1 r2 now1 now2,
        process_fit_file str_HTTPException r1 now1
        = process_fit_file str_HTTPException r2 now2
        <-> isoformat now1 = isoformat now2).
Proof.
  intros Hrun. split.
  - unfold parse_fit_file. rewrite Hrun. reflexivity.
  - intros r1 r2 now1 now2. unfold process_fit_file, mock_data. simpl. split.
    + apply (process_fit_file_startTime r1 r2).
    + intros ->. reflexivity.
Qed.

End DecoderFacts.

(** ** Properties of the upload handler *)

Section HandlerFacts.

Variable str_HTTPException : Z -> string -> string.
Variable FitReader : bytes -> reader_run.

#[local] Abbreviation str' := (str str_HTTPException).
#[local] Abbreviation process_uploaded_file' :=
  (process_uploaded_file str_HTTPException FitReader).

(** The request is refused at line 85, or earlier when there is no
    filename: nothing was read and nothing decoded. *)
Lemma rejected_before_read (file : UploadFile) (log : list event) :
  (forall s, filename file = Some s -> endswith s ".fit" = false) ->
  exists cause,
    process_uploaded_file' file log
    = (Raise (HTTPException 500 ("Error processing file: " ++ str' cause)), log)
    /\ (forall s, filename file = Some s ->
                  cause = HTTPException 400 "File must be a .fit file").
Proof.
  intros Hname.
  unfold process_uploaded_file, io_try, io_bind, filename_endswith.
  destruct (filename file) as [s |] eqn:E.
  - rewrite (Hname s eq_refl). simpl.
    exists (HTTPException 400 "File must be a .fit file"). split.
    + reflexivity.
    + intros s' _. reflexivity.
  - exists (LibraryError "AttributeError"
              "'NoneType' object has no attribute 'endswith'").
    split.
    + reflexivity.
    + intros s' Hs. discriminate Hs.
Qed.

(** What leaves the handler as an exception is always the 500 of line 100. *)
Lemma raised_is_500 (file : UploadFile) (log : list event) (e : exn) :
  fst (process_uploaded_file' file log) = Raise e ->
  exists cause, e = HTTPException 500 ("Error processing file: " ++ str' cause).
Proof.
  unfold process_uploaded_file, io_try, io_bind, io_call, io_raise, io_ret,
    filename_endswith.
  destruct (filename file) as [s |]; cbn [fst negb].
  - destruct (endswith s ".fit"); cbn [fst negb].
    + destruct (read file) as [content | e1]; cbn [fst].
      * destruct (parse_fit_file str_HTTPException FitReader content)
          as [d | e2]; cbn [fst]; intros H.
        -- discriminate H.
        -- injection H as <-. exists e2. reflexivity.
      * intros H. injection H as <-. exists e1. reflexivity.
    + intros H. injection H as <-.
      exists (HTTPException 400 "File must be a .fit file"). reflexivity.
  - intros H. injection H as <-.
    exists (LibraryError "AttributeError"
              "'NoneType' object has no attribute 'endswith'").
    reflexivity.
Qed.

(** C4: for an upload whose filename does not end in [.fit] (or is
    missing) the handler raises without reading the file and without
    calling [parse_fit_file]: the event log is returned as it was. *)
Theorem non_fit_upload_not_decoded (file : UploadFile) (log : list event) :
  (forall s, filename file = Some s -> endswith s ".fit" = false) ->
  (exists e, fst (process_uploaded_file' file log) = Raise e)
  /\ snd (process_uploaded_file' file log) = log
  /\ (forall content,
        ~ In (EvParse content) log ->
        ~ In (EvParse content) (snd (process_uploaded_file' file log))).
Proof.
  intros Hname.
  destruct (rejected_before_read file log Hname) as [cause [Hrun _]].
  rewrite Hrun. simpl. repeat split.
  - eexists. reflexivity.
  - intros content Hlog. exact Hlog.
Qed.

(** C5: every exception that leaves [process_uploaded_file] is an
    [HTTPException] with status 500, never 400; the 400 raised at line 85
    for a filename that does not end in [.fit] is caught and its text wrapped
    in the detail of a 500. *)
Theorem upload_failures_are_500 (file : UploadFile) (log : list event) :
  (forall e,
     fst (process_uploaded_file' file log) = Raise e ->
     status_of e = Some 500 /\ status_of e <> Some 400)
  /\ (forall s,
        filename file = Some s -> endswith s ".fit" = false ->
        fst (process_uploaded_file' file log)
        = Raise (HTTPException 500
                   ("Error processing file: "
                    ++ str' (HTTPException 400 "File must be a .fit file")))).
Proof.
  split.
  - intros e H. apply raised_is_500 in H. destruct H as [cause ->].
    simpl. split; [reflexivity | discriminate].
  - intros s Hs Hend.
    destruct (rejected_before_read file log) as [cause [Hrun Hcause]].
    + intros s' Hs'. rewrite Hs in Hs'. injection Hs' as <-. exact Hend.
    + rewrite Hrun. simpl. rewrite (Hcause s Hs). reflexivity.
Qed.

End HandlerFacts.

(** ** The statements at the sample collaborators *)

(** The sample ride decodes, and to the empty dictionary. *)
Lemma parse_fit_file_result_empty_witness :
  sample_parse Sample.ride [] = Return activity_data_init
  /\ ((metadata activity_data_init = [] /\ records activity_data_init = []
       /\ laps activity_data_init = [] /\ sessions activity_data_init = [])
      /\ (forall l g n fs d0,
            In n ["file_id"; "activity"; "session"; "lap"; "record"] ->
            process_frame (FitDataMessage l g n fs) d0 = Return d0)).
Proof.
  split.
  - reflexivity.
  - exact (parse_fit_file_result_empty Sample.str_HTTPException
             (Sample.reader Sample.ride) [] activity_data_init eq_refl).
Defined.

(** The header-only sample is a minimal run and decodes. *)
Lemma parse_fit_file_minimal_witness :
  minimal_run (Sample.reader Sample.minimal [])
  /\ exists d,
       sample_parse Sample.minimal [] = Return d
       /\ records d = [] /\ laps d = [] /\ sessions d = [].
Proof.
  assert (H : minimal_run (Sample.reader Sample.minimal [])).
  { split; [reflexivity | split].
    - exists 14, 32, 2132. reflexivity.
    - reflexivity. }
  split.
  - exact H.
  - exact (parse_fit_file_minimal Sample.str_HTTPException
             (Sample.reader Sample.minimal) [] H).
Defined.

Lemma parse_fit_file_records_ordered_witness :
  sample_parse Sample.ride [] = Return activity_data_init
  /\ (time_ordered (records activity_data_init)
      /\ (forall l g n fs d0 d1,
            n = "lap" \/ n = "session" ->
            process_frame (FitDataMessage l g n fs) d0 = Return d1 ->
            records d1 = records d0)).
Proof.
  split.
  - reflexivity.
  - exact (parse_fit_file_records_ordered Sample.str_HTTPException
             (Sample.reader Sample.ride) [] activity_data_init eq_refl).
Defined.

Lemma event_is_not_a_named_branch :
  ~ In "event" ["file_id"; "activity"; "session"; "lap"; "record"].
Proof.
  simpl. intros [H | [H | [H | [H | [H | H]]]]];
    solve [discriminate H | exact H].
Defined.

(** The event message of the sample ride is skipped. *)
Lemma unknown_message_skipped_witness :
  (forall d, process_frame (FitDataMessage 2 21 "event" []) d = Return d)
  /\ (forall pre post d,
        iterate (pre ++ FitDataMessage 2 21 "event" [] :: post) d
        = iterate (pre ++ post) d)
  /\ (forall pre post r,
        parse_body {| yielded := pre ++ FitDataMessage 2 21 "event" [] :: post;
                      raised := r |}
        = parse_body {| yielded := pre ++ post; raised := r |}).
Proof.
  exact (unknown_message_skipped 2 21 "event" [] event_is_not_a_named_branch).
Defined.

(** C3, the claim refuted: the reader rejects the header, and what
    [parse_fit_file] raises is the builtin [Exception], none of the six
    error kinds of the contract. *)
Lemma generic_exception_escapes :
  sample_parse Sample.bad_header []
  = Raise (Exception "Failed to parse FIT file: not a FIT file")
  /\ is_FitError (Exception "Failed to parse FIT file: not a FIT file") = false.
Proof. split; reflexivity. Qed.

Lemma parse_fit_file_failure_shape_witness :
  (sample_parse Sample.bad_header [] = Return activity_data_init
   \/ exists cause,
        raised (Sample.reader Sample.bad_header []) = Some cause
        /\ sample_parse Sample.bad_header []
           = Raise (Exception ("Failed to parse FIT file: "
                               ++ str Sample.str_HTTPException cause)))
  /\ (forall e,
        sample_parse Sample.bad_header [] = Raise e ->
        type_name e = "Exception" /\ is_FitError e = false).
Proof.
  exact (parse_fit_file_failure_shape Sample.str_HTTPException
           (Sample.reader Sample.bad_header) []).
Defined.



(** C7, the claim refuted: the heart-rate field of the sample ride holds
    the uint8 sentinel, the parse succeeds, and the result has no entry
    marking heart_rate absent. *)
Lemma invalid_field_not_marked :
  is_invalid Sample.heart_rate_invalid = true
  /\ In Sample.heart_rate_invalid (fields_of (yielded Sample.ride))
  /\ sample_parse Sample.ride [] = Return activity_data_init
  /\ marks_absent "heart_rate" activity_data_init = false.
Proof.
  repeat split. simpl. right. left. reflexivity.
Qed.

Lemma no_field_reaches_result_witness :
  (sample_parse Sample.ride [] = Return activity_data_init
   /\ In Sample.heart_rate_invalid
        (fields_of (yielded (Sample.reader Sample.ride []))))
  /\ (carries "heart_rate" 255 activity_data_init = false
      /\ marks_absent "heart_rate" activity_data_init = false).
Proof.
  assert (Hin : In Sample.heart_rate_invalid
                  (fields_of (yielded (Sample.reader Sample.ride [])))).
  { simpl. right. left. reflexivity. }
  split.
  - split; [reflexivity | exact Hin].
  - exact (no_field_reaches_result Sample.str_HTTPException
             (Sample.reader Sample.ride) [] activity_data_init eq_refl
             Sample.heart_rate_invalid Hin).
Defined.

(** C2, the claim refuted: the same request, served at two clock readings
    one second apart, gets two different responses. *)
Lemma process_fit_file_clock_dependent :
  isoformat Sample.morning = "2026-11-03T09:05:00"
  /\ isoformat Sample.a_second_later = "2026-11-03T09:05:01"
  /\ process_fit_file Sample.str_HTTPException Sample.request Sample.morning
     <> process_fit_file Sample.str_HTTPException Sample.request Sample.a_second_later.
Proof.
  repeat split.
  intros H.
  apply (process_fit_file_startTime Sample.str_HTTPException) in H.
  discriminate H.
Qed.

Lemma decode_deterministic_up_to_clock_witness :
  Sample.reader Sample.ride [] = Sample.reader_by_content []
  /\ (sample_parse Sample.ride []
      = parse_fit_file Sample.str_HTTPException Sample.reader_by_content []
      /\ (forall r1 r2 now1 now2,
            process_fit_file Sample.str_HTTPException r1 now1
            = process_fit_file Sample.str_HTTPException r2 now2
            <-> isoformat now1 = isoformat now2)).
Proof.
  split.
  - reflexivity.
  - exact (decode_deterministic_up_to_clock Sample.str_HTTPException
             (Sample.reader Sample.ride) Sample.reader_by_content [] eq_refl).
Defined.

(** ** The upload handler at sample uploads *)

#[local] Abbreviation sample_upload name :=
  (process_uploaded_file Sample.str_HTTPException (Sample.reader Sample.ride)
     (Sample.upload name) []).

(** A [.fit] upload is read and handed to the decoder. *)
Example fit_upload_is_decoded :
  sample_upload "ride.fit"
  = (Return (PDict [("success", PBool true);
                    ("data", to_value activity_data_init);
                    ("message", PStr "File processed successfully")]),
     [EvRead; EvParse []]).
Proof. reflexivity. Qed.

(** A [.gpx] upload gets the 500 that wraps the 400 of line 85. *)
Example gpx_upload_gets_500 :
  sample_upload "ride.gpx"
  = (Raise (HTTPException 500
              "Error processing file: 400: File must be a .fit file"), []).
Proof. reflexivity. Qed.

Lemma gpx_is_not_fit (s : string) :
  filename (Sample.upload "ride.gpx") = Some s -> endswith s ".fit" = false.
Proof.
  intros H. injection H as <-. reflexivity.
Defined.

Lemma non_fit_upload_not_decoded_witness :
  endswith "ride.gpx" ".fit" = false
  /\ ((exists e, fst (sample_upload "ride.gpx") = Raise e)
      /\ snd (sample_upload "ride.gpx") = []
      /\ (forall content,
            ~ In (EvParse content) [] ->
            ~ In (EvParse content) (snd (sample_upload "ride.gpx")))).
Proof.
  split.
  - reflexivity.
  - exact (non_fit_upload_not_decoded Sample.str_HTTPException
             (Sample.reader Sample.ride) (Sample.upload "ride.gpx") []
             gpx_is_not_fit).
Defined.

Lemma upload_failures_are_500_witness :
  fst (sample_upload "ride.gpx")
  = Raise (HTTPException 500
             ("Error processing file: "
              ++ str Sample.str_HTTPException
                   (HTTPException 400 "File must be a .fit file"))).
Proof.
  exact (proj2 (upload_failures_are_500 Sample.str_HTTPException
                  (Sample.reader Sample.ride) (Sample.upload "ride.gpx") [])
           "ride.gpx" eq_refl eq_refl).
Defined.

(** * Further properties *)

(** ** Strings and decimal fields *)

Lemma append_nil_r (s : string) : s ++ "" = s.
Proof. induction s as [| c s IH]; simpl; [reflexivity | now rewrite IH]. Qed.

Lemma length_append (s t : string) :
  String.length (s ++ t) = (String.length s + String.length t)%nat.
Proof. induction s as [| c s IH]; simpl; [reflexivity | now rewrite IH]. Qed.

Lemma all_digits_app (s t : string) :
  all_digits (s ++ t) = all_digits s && all_digits t.
Proof.
  induction s as [| c s IH]; simpl; [reflexivity |].
  rewrite IH. apply andb_assoc.
Qed.

Lemma all_digits_zeros (k : nat) : all_digits (zeros k) = true.
Proof. induction k as [| k IH]; simpl; [reflexivity | exact IH]. Qed.

Lemma all_digits_string_of_uint (d : Decimal.uint) :
  all_digits (NilEmpty.string_of_uint d) = true.
Proof. induction d; simpl; auto. Qed.

Lemma all_digits_field (w : nat) (n : N) : all_digits (zfill w (str_of_N n)) = true.
Proof.
  unfold zfill, str_of_N.
  rewrite all_digits_app, all_digits_zeros, all_digits_string_of_uint. reflexivity.
Qed.

(** Two digit strings followed by the same separator and equal as a whole
    are equal part by part. *)
Lemma split_at_separator (c : ascii) (a a' b b' : string) :
  is_digit c = false ->
  all_digits a = true -> all_digits a' = true ->
  a ++ String c b = a' ++ String c b' ->
  a = a' /\ b = b'.
Proof.
  intros Hc. revert a'.
  induction a as [| x a IH]; intros [| x' a'] Ha Ha' H; simpl in *.
  - injection H as H. split; [reflexivity | exact H].
  - injection H as Hx _. subst x'.
    apply andb_true_iff in Ha'. destruct Ha' as [Hd _]. congruence.
  - injection H as Hx _. subst x.
    apply andb_true_iff in Ha. destruct Ha as [Hd _]. congruence.
  - injection H as Hx H. subst x'.
    apply andb_true_iff in Ha. apply andb_true_iff in Ha'.
    destruct (IH a' (proj2 Ha) (proj2 Ha') H) as [-> ->]. split; reflexivity.
Qed.

Lemma parse_N_zeros (k : nat) (s : string) : parse_N (zeros k ++ s) = parse_N s.
Proof.
  unfold parse_N.
  induction k as [| k IH]; simpl; [reflexivity |].
  destruct (NilEmpty.uint_of_string (zeros k ++ s)) as [d |];
    destruct (NilEmpty.uint_of_string s) as [d' |]; simpl in *;
    try discriminate; try reflexivity.
  exact IH.
Qed.

Lemma parse_N_field (w : nat) (n : N) : parse_N (zfill w (str_of_N n)) = Some n.
Proof.
  unfold zfill. rewrite parse_N_zeros. unfold parse_N, str_of_N.
  rewrite NilEmpty.usu. simpl. now rewrite DecimalN.Unsigned.of_to.
Qed.

Lemma field_inj (w w' : nat) (n n' : N) :
  zfill w (str_of_N n) = zfill w' (str_of_N n') -> n = n'.
Proof.
  intros H. apply (f_equal parse_N) in H.
  rewrite !parse_N_field in H. now injection H.
Qed.

Lemma substring_all (s : string) : substring 0 (String.length s) s = s.
Proof. induction s as [| c s IH]; simpl; [reflexivity | now rewrite IH]. Qed.

Lemma substring_skip (p t : string) :
  substring (String.length p) (String.length t) (p ++ t) = t.
Proof. induction p as [| c p IH]; simpl; [apply substring_all | exact IH]. Qed.

Lemma substring_split (k : nat) (s : string) :
  (k <= String.length s)%nat ->
  s = substring 0 k s ++ substring k (String.length s - k) s.
Proof.
  revert k. induction s as [| c s IH]; intros k Hk; simpl in *.
  - destruct k; reflexivity.
  - destruct k as [| k]; simpl.
    + now rewrite substring_all.
    + f_equal. apply IH. lia.
Qed.

(** X1: the test of line 84 holds exactly for the names made of some
    prefix, possibly empty, followed by the suffix. *)
Theorem endswith_spec (s suffix : string) :
  endswith s suffix = true <-> exists p, s = p ++ suffix.
Proof.
  unfold endswith. split.
  - destruct (String.length suffix <=? String.length s)%nat eqn:E;
      [| discriminate].
    apply Nat.leb_le in E. intros H. apply String.eqb_eq in H.
    pose proof (substring_split (String.length s - String.length suffix) s) as Hs.
    replace (String.length s - (String.length s - String.length suffix))%nat
      with (String.length suffix) in Hs by lia.
    rewrite H in Hs.
    eexists. apply Hs. lia.
  - intros [p ->]. rewrite length_append.
    replace (String.length suffix <=? String.length p + String.length suffix)%nat
      with true by (symmetry; apply Nat.leb_le; lia).
    replace (String.length p + String.length suffix - String.length suffix)%nat
      with (String.length p) by lia.
    rewrite substring_skip. apply String.eqb_refl.
Qed.


(** ** The clock reading in the response *)

Ltac split_field H :=
  apply split_at_separator in H;
  [ | reflexivity | apply all_digits_field | apply all_digits_field ].

Lemma isoformat_inj (dt dt' : datetime) :
  isoformat dt = isoformat dt' -> dt = dt'.
Proof.
  intros H. unfold isoformat in H. cbn [append] in H.
  split_field H. destruct H as [Hy H].
  split_field H. destruct H as [Hmo H].
  split_field H. destruct H as [Hd H].
  split_field H. destruct H as [Hh H].
  split_field H. destruct H as [Hmi H].
  apply field_inj in Hy, Hmo, Hd, Hh, Hmi.
  assert (Hs : second dt = second dt' /\ microsecond dt = microsecond dt').
  { destruct (microsecond dt =? 0)%N eqn:E; destruct (microsecond dt' =? 0)%N eqn:E';
      cbn [append] in H.
    - rewrite !append_nil_r in H. apply field_inj in H.
      apply N.eqb_eq in E, E'. split; congruence.
    - apply (f_equal all_digits) in H.
      rewrite !all_digits_app, !all_digits_field in H. discriminate H.
    - apply (f_equal all_digits) in H.
      rewrite !all_digits_app, !all_digits_field in H. discriminate H.
    - split_field H. destruct H as [Hs Hu].
      apply field_inj in Hs, Hu. split; assumption. }
  destruct Hs as [Hs Hu].
  destruct dt, dt'; simpl in *. subst. reflexivity.
Qed.

Section Digits.

Local Open Scope N_scope.

Lemma of_lu_digit (k : N) (d : Decimal.uint) :
  k < 10 -> DecimalPos.Unsigned.of_lu (digit k d) = k + 10 * DecimalPos.Unsigned.of_lu d.
Proof.
  intros Hk.
  assert (H : k = 0 \/ k = 1 \/ k = 2 \/ k = 3 \/ k = 4 \/ k = 5 \/ k = 6
              \/ k = 7 \/ k = 8 \/ k = 9) by lia.
  repeat (destruct H as [-> | H]; [reflexivity |]). subst k. reflexivity.
Qed.

Lemma nb_digits_digit (k : N) (d : Decimal.uint) :
  Decimal.nb_digits (digit k d) = S (Decimal.nb_digits d).
Proof.
  destruct k as [| p]; [reflexivity |].
  do 4 (try destruct p as [p | p |]; try reflexivity).
Qed.

Lemma of_lu_low_digits (w : nat) (n : N) :
  n < 10 ^ N.of_nat w -> DecimalPos.Unsigned.of_lu (low_digits w n) = n.
Proof.
  revert n. induction w as [| w IH]; intros n Hn.
  - simpl in *. lia.
  - cbn [low_digits].
    rewrite of_lu_digit by (apply N.mod_lt; lia).
    rewrite IH.
    + symmetry. rewrite N.add_comm. apply N.div_mod'.
    + rewrite Nat2N.inj_succ, N.pow_succ_r' in Hn.
      apply N.Div0.div_lt_upper_bound. exact Hn.
Qed.

Lemma nb_digits_low_digits (w : nat) (n : N) :
  Decimal.nb_digits (low_digits w n) = w.
Proof.
  revert n. induction w as [| w IH]; intros n; cbn [low_digits].
  - reflexivity.
  - rewrite nb_digits_digit, IH. reflexivity.
Qed.

End Digits.

Lemma length_string_of_uint (d : Decimal.uint) :
  String.length (NilEmpty.string_of_uint d) = Decimal.nb_digits d.
Proof. induction d; simpl; congruence. Qed.

(** A number below [10 ^ w] prints in at most [w] characters. *)
Lemma length_str_of_N (w : nat) (n : N) :
  (n < 10 ^ N.of_nat (S w))%N -> (String.length (str_of_N n) <= S w)%nat.
Proof.
  intros Hn. unfold str_of_N. rewrite length_string_of_uint.
  pose (d := Decimal.rev (low_digits (S w) n)).
  assert (Hd : N.of_uint d = n).
  { unfold d, N.of_uint. rewrite DecimalPos.Unsigned.of_lu_rev.
    apply of_lu_low_digits. exact Hn. }
  assert (Hnb : Decimal.nb_digits d = S w).
  { unfold d. rewrite DecimalFacts.nb_digits_rev. apply nb_digits_low_digits. }
  rewrite <- Hd, DecimalN.Unsigned.to_of, <- Hnb.
  apply DecimalFacts.nb_digits_unorm. apply DecimalFacts.nb_digits_n0. rewrite Hnb. discriminate.
Qed.

Lemma length_zeros (k : nat) : String.length (zeros k) = k.
Proof. induction k as [| k IH]; simpl; congruence. Qed.

Lemma length_field (w : nat) (n : N) :
  (n < 10 ^ N.of_nat (S w))%N -> String.length (zfill (S w) (str_of_N n)) = S w.
Proof.
  intros Hn. apply length_str_of_N in Hn.
  unfold zfill. rewrite length_append, length_zeros. lia.
Qed.

Lemma isoformat_length (dt : datetime) :
  in_range dt = true ->
  String.length (isoformat dt)
  = if (microsecond dt =? 0)%N then 19%nat else 26%nat.
Proof.
  unfold in_range. rewrite !andb_true_iff, !N.leb_le.
  intros [[[[[[[[[Hy1 Hy] Hm1] Hm] Hd1] Hd] Hh] Hmi] Hs] Hu].
  unfold isoformat.
  repeat rewrite length_append.
  rewrite !length_field by (simpl; lia).
  destruct (microsecond dt =? 0)%N.
  - reflexivity.
  - rewrite length_append, length_field by (simpl; lia). reflexivity.
Qed.

(** ** The upload handler, path by path *)

Section FurtherFacts.

Variable str_HTTPException : Z -> string -> string.
Variable FitReader : bytes -> reader_run.

#[local] Abbreviation str' := (str str_HTTPException).
#[local] Abbreviation decode := (parse_fit_file str_HTTPException FitReader).
#[local] Abbreviation upload := (process_uploaded_file str_HTTPException FitReader).

(** The handler, path by path. *)
Lemma upload_outcome (file : UploadFile) (log : list event) :
  upload file log =
  match filename file with
  | None =>
      (Raise (HTTPException 500
                ("Error processing file: "
                 ++ "'NoneType' object has no attribute 'endswith'")), log)
  | Some s =>
      if endswith s ".fit" then
        match read file with
        | Raise e =>
            (Raise (HTTPException 500 ("Error processing file: " ++ str' e)),
             (log ++ [EvRead])%list)
        | Return content =>
            (match raised (FitReader content) with
             | Some cause =>
                 Raise (HTTPException 500
                          ("Error processing file: Failed to parse FIT file: "
                           ++ str' cause))
             | None => Return success_payload
             end,
             (log ++ [EvRead; EvParse content])%list)
        end
      else
        (Raise (HTTPException 500
                  ("Error processing file: "
                   ++ str' (HTTPException 400 "File must be a .fit file"))), log)
  end.
Proof.
  unfold process_uploaded_file, io_try, io_bind, io_call, io_raise, io_ret,
    filename_endswith.
  destruct (filename file) as [s |]; [| reflexivity].
  destruct (endswith s ".fit"); cbn [negb]; [| reflexivity].
  destruct (read file) as [content | e]; [| reflexivity].
  rewrite (parse_fit_file_outcome str_HTTPException FitReader content).
  rewrite <- List.app_assoc.
  destruct (raised (FitReader content)); reflexivity.
Qed.

(** X2: the upload handler returns, rather than raises, exactly when the
    filename ends in [.fit], the body can be read and the reader raises
    nothing on it; what it returns is then the success dictionary around
    the empty activity data. *)
Theorem upload_returns_iff (file : UploadFile) (log : list event) (v : value) :
  fst (upload file log) = Return v
  <-> v = success_payload
      /\ exists s content,
           filename file = Some s /\ endswith s ".fit" = true
           /\ read file = Return content
           /\ raised (FitReader content) = None.
Proof.
  rewrite upload_outcome.
  destruct (filename file) as [s |]; cbn [fst].
  - destruct (endswith s ".fit") eqn:Hfit; cbn [fst].
    + destruct (read file) as [content | e]; cbn [fst].
      * destruct (raised (FitReader content)) as [cause |] eqn:Hr.
        -- split; [discriminate |].
           intros [_ [s' [c' [_ [_ [Hc Hn]]]]]].
           injection Hc as <-. congruence.
        -- split.
           ++ intros H. injection H as <-. split; [reflexivity |].
              exists s, content. auto.
           ++ intros [-> _]. reflexivity.
      * split; [discriminate |].
        intros [_ [s' [c' [_ [_ [Hc _]]]]]]. discriminate Hc.
    + split; [discriminate |].
      intros [_ [s' [c' [Hs [Hf _]]]]]. injection Hs as <-. congruence.
  - split; [discriminate |].
    intros [_ [s' [c' [Hs _]]]]. discriminate Hs.
Qed.

(** X3: when the body of a [.fit] upload cannot be read, the handler
    answers 500 with the text of the read error, and the decoder is not
    called: the log gains the read alone. *)
Theorem upload_read_failure (file : UploadFile) (log : list event)
    (s : string) (e : exn) :
  filename file = Some s -> endswith s ".fit" = true -> read file = Raise e ->
  upload file log
  = (Raise (HTTPException 500 ("Error processing file: " ++ str' e)),
     (log ++ [EvRead])%list).
Proof.
  intros Hs Hfit Hread. rewrite upload_outcome, Hs, Hfit, Hread. reflexivity.
Qed.

(** X4: when the reader raises on the body of a [.fit] upload, the 500
    carries both prefixes, the handler's and the decoder's, before the
    reader's text; the log gains one read and one decode of the bytes
    read. *)
Theorem upload_parse_failure (file : UploadFile) (log : list event)
    (s : string) (content : bytes) (cause : exn) :
  filename file = Some s -> endswith s ".fit" = true ->
  read file = Return content ->
  raised (FitReader content) = Some cause ->
  upload file log
  = (Raise (HTTPException 500
              ("Error processing file: Failed to parse FIT file: " ++ str' cause)),
     (log ++ [EvRead; EvParse content])%list).
Proof.
  intros Hs Hfit Hread Hr. rewrite upload_outcome, Hs, Hfit, Hread, Hr. reflexivity.
Qed.

(** X5: the handler only appends to the log, and what it appends does
    not depend on the log: nothing, one read, or one read followed by one
    decode of exactly the bytes read. *)
Theorem upload_log_discipline (file : UploadFile) (log : list event) :
  fst (upload file log) = fst (upload file [])
  /\ snd (upload file log) = (log ++ snd (upload file []))%list
  /\ (snd (upload file []) = []
      \/ snd (upload file []) = [EvRead]
      \/ exists content,
           read file = Return content
           /\ snd (upload file []) = [EvRead; EvParse content]).
Proof.
  rewrite !upload_outcome.
  destruct (filename file) as [s |]; cbn [fst snd].
  - destruct (endswith s ".fit"); cbn [fst snd].
    + destruct (read file) as [content | e]; cbn [fst snd app].
      * repeat split. right. right. exists content. split; reflexivity.
      * repeat split. right. left. reflexivity.
    + repeat split.
      * now rewrite List.app_nil_r.
      * left. reflexivity.
  - repeat split.
    + now rewrite List.app_nil_r.
    + left. reflexivity.
Qed.

(** X6: the decoder is called on [content] exactly when the filename
    ends in [.fit] and reading the body returned [content]. *)
Theorem decoder_called_iff (file : UploadFile) (content : bytes) :
  In (EvParse content) (snd (upload file []))
  <-> (exists s, filename file = Some s /\ endswith s ".fit" = true)
      /\ read file = Return content.
Proof.
  rewrite upload_outcome.
  destruct (filename file) as [s |]; cbn [snd].
  - destruct (endswith s ".fit") eqn:Hfit; cbn [snd].
    + destruct (read file) as [c | e]; cbn [snd app].
      * split.
        -- intros [H | [H | []]]; [discriminate H |].
           injection H as <-. split; [exists s; auto | reflexivity].
        -- intros [_ H]. injection H as <-. right. left. reflexivity.
      * split.
        -- intros [H | []]. discriminate H.
        -- intros [_ H]. discriminate H.
    + split; [intros [] |].
      intros [[s' [Hs Hf]] _]. injection Hs as <-. congruence.
  - split; [intros [] |].
    intros [[s' [Hs _]] _]. discriminate Hs.
Qed.

(** X7: [parse_fit_file] returns exactly when the reader raises nothing;
    no sequence of frames makes the loop itself fail. *)
Theorem parse_fit_file_returns_iff (file_content : bytes) :
  (exists d, decode file_content = Return d)
  <-> raised (FitReader file_content) = None.
Proof.
  rewrite parse_fit_file_outcome.
  destruct (raised (FitReader file_content)) as [e |]; split.
  - intros [d H]. discriminate H.
  - discriminate.
  - reflexivity.
  - intros _. exists activity_data_init. reflexivity.
Qed.

(** X8: of the reader's exception only the text survives: two failures
    with the same text, whatever their classes, the frames yielded before
    them and the buffers, give the same exception. *)
Theorem parse_failure_keeps_text_only
    (FitReader' : bytes -> reader_run) (b b' : bytes) (e e' : exn) :
  raised (FitReader b) = Some e -> raised (FitReader' b') = Some e' ->
  str' e = str' e' ->
  decode b = parse_fit_file str_HTTPException FitReader' b'
  /\ decode b = Raise (Exception ("Failed to parse FIT file: " ++ str' e)).
Proof.
  intros He He' Hstr.
  rewrite !parse_fit_file_outcome, He, He', Hstr. split; reflexivity.
Qed.

(** X10: two calls of /process-fit answer alike exactly when they read
    the same clock value (year to microsecond), whatever the requests. *)
Theorem process_fit_file_same_iff_clock (r1 r2 : ProcessRequest) (now1 now2 : datetime) :
  process_fit_file str_HTTPException r1 now1
  = process_fit_file str_HTTPException r2 now2
  <-> now1 = now2.
Proof.
  split.
  - intros H. apply isoformat_inj.
    exact (process_fit_file_startTime str_HTTPException r1 r2 now1 now2 H).
  - intros ->. reflexivity.
Qed.

(** X11: for a clock reading within the ranges of a [datetime], the
    [startTime] of the response is a string of 19 characters when the
    microsecond is zero and of 26 otherwise. *)
Theorem startTime_length (request : ProcessRequest) (now : datetime) :
  in_range now = true ->
  exists resp s,
    process_fit_file str_HTTPException request now = Return resp
    /\ startTime_of resp = Some (PStr s)
    /\ String.length s = if (microsecond now =? 0)%N then 19%nat else 26%nat.
Proof.
  intros Hr. eexists. exists (isoformat now). split; [reflexivity |].
  split; [reflexivity |]. apply isoformat_length. exact Hr.
Qed.

End FurtherFacts.

(** X9: on the frames that have no [name] attribute the loop body
    returns the dictionary unchanged: the test of line 116 keeps it from
    reading the attribute. *)
Theorem name_guard (f : frame) (d : activity_data_t) (e : exn) :
  name f = Raise e -> process_frame f d = Return d.
Proof.
  intros H. destruct f; try discriminate H; reflexivity.
Qed.

(** ** The further properties at the sample collaborators *)

Lemma upload_read_failure_witness :
  process_uploaded_file Sample.str_HTTPException (Sample.reader Sample.ride)
    Sample.unreadable []
  = (Raise (HTTPException 500 "Error processing file: connection reset"),
     [EvRead]).
Proof.
  exact (upload_read_failure Sample.str_HTTPException (Sample.reader Sample.ride)
           Sample.unreadable [] "ride.fit"
           (LibraryError "OSError" "connection reset")
           eq_refl eq_refl eq_refl).
Defined.

Lemma upload_parse_failure_witness :
  process_uploaded_file Sample.str_HTTPException (Sample.reader Sample.bad_header)
    (Sample.upload "ride.fit") []
  = (Raise (HTTPException 500
              "Error processing file: Failed to parse FIT file: not a FIT file"),
     [EvRead; EvParse []]).
Proof.
  exact (upload_parse_failure Sample.str_HTTPException
           (Sample.reader Sample.bad_header) (Sample.upload "ride.fit") []
           "ride.fit" [] (LibraryError "FitHeaderError" "not a FIT file")
           eq_refl eq_refl eq_refl eq_refl).
Defined.

Lemma parse_failure_keeps_text_only_witness :
  sample_parse Sample.bad_header [] = sample_parse Sample.bad_crc []
  /\ sample_parse Sample.bad_header []
     = Raise (Exception "Failed to parse FIT file: not a FIT file").
Proof.
  exact (parse_failure_keeps_text_only Sample.str_HTTPException
           (Sample.reader Sample.bad_header) (Sample.reader Sample.bad_crc)
           [] []
           (LibraryError "FitHeaderError" "not a FIT file")
           (LibraryError "FitCRCError" "not a FIT file")
           eq_refl eq_refl eq_refl).
Defined.

Lemma startTime_length_witness :
  in_range Sample.morning = true
  /\ exists resp s,
       process_fit_file Sample.str_HTTPException Sample.request Sample.morning
       = Return resp
       /\ startTime_of resp = Some (PStr s)
       /\ String.length s = 19%nat.
Proof.
  split.
  - reflexivity.
  - exact (startTime_length Sample.str_HTTPException Sample.request
             Sample.morning eq_refl).
Defined.

Lemma name_guard_witness :
  name Sample.header
  = Raise (LibraryError "AttributeError"
             "'FitHeader' object has no attribute 'name'")
  /\ process_frame Sample.header activity_data_init = Return activity_data_init.
Proof.
  split.
  - reflexivity.
  - exact (name_guard Sample.header activity_data_init _ eq_refl).
Defined.
